(** * zkdid-js: proof generation and verification (dist/zkproof.js)

    A shallow embedding of [generateZKProof], [_generateSignedZKProof],
    [verifyZKProof] and [_verifySignedZKProof], and the properties of the
    protocol specification that concern them.

    The module imports [getDID]/[didEqual] (./did), [getZKCredential]
    (./credential), [getCircuit] (./circuit), [callApi] (./lib/tool) and
    [Base64.decode] (js-base64), and uses the built-ins [JSON.parse],
    [Object.entries] and [Map].  The imported functions are parameters of
    the development (record [Env]); the built-ins that act on values held
    by the function itself are modelled concretely. *)

From Stdlib Require Import Floats.PrimFloat.
From stdpp Require Import base strings list gmap pretty.

Set Default Proof Using "Type".

(** ** JavaScript values and completions *)

(** A thrown [Error] object: its [name] ("Error", "TypeError", ...) and its
    [message]. *)
Record exn : Type := MkExn { name : string; message : string }.

(** [Error(msg)] as the source writes it. *)
Definition Error (msg : string) : exn := MkExn "Error" msg.
Definition TypeError (msg : string) : exn := MkExn "TypeError" msg.

(** The outcome of evaluating a call: a value, or a thrown exception.  For
    the [async] function [generateZKProof] it is the settled state of the
    returned promise (fulfilled / rejected). *)
Inductive Completion (A : Type) : Type :=
| Normal (a : A)
| Throw (e : exn).
Arguments Normal {A} a.
Arguments Throw {A} e.

Definition is_Normal {A} (c : Completion A) : bool :=
  match c with Normal _ => true | Throw _ => false end.

(** The values [JSON.parse] produces.  A [JObject] holds the object's own
    enumerable properties in the order [Object.entries] enumerates them; a
    number is an IEEE double. *)
#[local] Unset Elimination Schemes.
Inductive JSON : Type :=
| JNull
| JBool (b : bool)
| JNumber (n : float)
| JString (s : string)
| JArray (elems : list JSON)
| JObject (props : list (string * JSON)).
#[local] Set Elimination Schemes.

(** The [Map] built by the verifier: string keys, [set] overwrites. *)
Abbreviation FieldMapping := (gmap string JSON).

(** ** Records of the protocol *)

(** The fields of a ZKCredential that this module reads. *)
Module ZKCredential.
Record t (DID : Type) : Type := Mk {
  did : DID;
  purpose : string;
  credential : string;
  commitment : string;
}.
Arguments Mk {DID}.
Arguments did {DID}.
Arguments purpose {DID}.
Arguments credential {DID}.
Arguments commitment {DID}.
End ZKCredential.

Module ZKProof.
Record t : Type := Mk {
  code : string;
  proof : string;
  commitment : string;
}.
End ZKProof.

Module SignedZKProof.
Record t : Type := Mk {
  body : ZKProof.t;
  signature : string;
}.
End SignedZKProof.

(** A circuit as this module uses it: [circuit.toCode()] and
    [circuit.verify(fields)]. *)
Record Circuit : Type := MkCircuit {
  toCode : string;
  verify : FieldMapping -> Completion bool;
}.

(** The functions imported from the other modules of the package and from
    js-base64, together with [JSON.parse]. *)
Record Env (DID : Type) : Type := MkEnv {
  getDID : string -> Completion DID;
  getZKCredential : DID -> string -> Completion (ZKCredential.t DID);
  didEqual : DID -> DID -> bool;
  getCircuit : string -> string -> Completion Circuit;
  Base64_decode : string -> Completion string;
  JSON_parse : string -> Completion JSON;
}.
Arguments MkEnv {DID}.
Arguments getDID {DID}.
Arguments getZKCredential {DID}.
Arguments didEqual {DID}.
Arguments getCircuit {DID}.
Arguments Base64_decode {DID}.
Arguments JSON_parse {DID}.

(** ** Calls and their log *)

(** One entry per call of an imported function, of the decoder and of
    [circuit.verify], with its arguments.  [circuit.toCode()] is read as a
    field of the circuit and leaves no entry. *)
Inductive Event (DID : Type) : Type :=
| EcallApi
| EgetDID (address : string)
| EgetZKCredential (d : DID) (purpose : string)
| EdidEqual (a b : DID)
| EgetCircuit (purpose code : string)
| EBase64_decode (payload : string)
| EJSON_parse (text : string)
| Everify (circuit : Circuit) (fields : FieldMapping).
Arguments EcallApi {DID}.
Arguments EgetDID {DID}.
Arguments EgetZKCredential {DID}.
Arguments EdidEqual {DID}.
Arguments EgetCircuit {DID}.
Arguments EBase64_decode {DID}.
Arguments EJSON_parse {DID}.
Arguments Everify {DID}.

(** The function an entry of the log is a call of. *)
Definition callee {DID} (ev : Event DID) : string :=
  match ev with
  | EcallApi => "callApi"
  | EgetDID _ => "getDID"
  | EgetZKCredential _ _ => "getZKCredential"
  | EdidEqual _ _ => "didEqual"
  | EgetCircuit _ _ => "getCircuit"
  | EBase64_decode _ => "Base64.decode"
  | EJSON_parse _ => "JSON.parse"
  | Everify _ _ => "circuit.verify"
  end.

(** A computation: the calls it made, in order, and its completion. *)
Definition Run (DID A : Type) : Type := (list (Event DID) * Completion A)%type.

Definition ret {DID A} (a : A) : Run DID A := ([], Normal a).

Definition throw {DID A} (e : exn) : Run DID A := ([], Throw e).

Definition bind {DID A B} (m : Run DID A) (k : A -> Run DID B) : Run DID B :=
  match m with
  | (log, Normal a) => let '(log', r) := k a in (log ++ log', r)
  | (log, Throw e) => (log, Throw e)
  end.

(** A logged call whose completion is [r]. *)
Definition call {DID A} (ev : Event DID) (r : Completion A) : Run DID A := ([ev], r).

Declare Scope run_scope.
Delimit Scope run_scope with run.
Notation "x <- m ;; k" := (bind m (fun x => k))
  (at level 100, m at next level, right associativity) : run_scope.
Notation "m ;; k" := (bind m (fun _ => k))
  (at level 100, right associativity) : run_scope.

Definition calls {DID A} (m : Run DID A) : list (Event DID) := fst m.
Definition outcome {DID A} (m : Run DID A) : Completion A := snd m.

(** ** Built-ins *)

(** The one-character strings of [s], numbered from [i]:
    the indexed properties of a string value. *)
Fixpoint string_entries (i : nat) (s : string) : list (string * JSON) :=
  match s with
  | EmptyString => []
  | String c s' => (pretty i, JString (String c EmptyString)) :: string_entries (S i) s'
  end.

Fixpoint array_entries (i : nat) (l : list JSON) : list (string * JSON) :=
  match l with
  | [] => []
  | v :: l' => (pretty i, v) :: array_entries (S i) l'
  end.

(** [Object.entries(v)] on a value produced by [JSON.parse]: [null] cannot
    be converted to an object; a boolean or a number has no own enumerable
    property; a string and an array have their indexed elements. *)
Definition Object_entries (v : JSON) : Completion (list (string * JSON)) :=
  match v with
  | JNull => Throw (TypeError "Cannot convert undefined or null to object")
  | JBool _ => Normal []
  | JNumber _ => Normal []
  | JString s => Normal (string_entries 0 s)
  | JArray l => Normal (array_entries 0 l)
  | JObject props => Normal props
  end.

(** [entries.forEach(([field, value]) => fields.set(field, value))]. *)
Definition Map_set_all (fields : FieldMapping) (entries : list (string * JSON)) : FieldMapping :=
  foldl (fun m '(field, value) => <[field := value]> m) fields entries.

(** ** The module's functions *)

(** The errors thrown by the source, under the names the specification
    gives to the failures. *)
Definition ProverMismatch : exn := Error "DID on credential is not matching prover DID".
Definition PurposeMismatch : exn := Error "Credential is not matching the purpose".
Definition CommitmentMismatch : exn := Error "Commitment is not matching".
Definition CircuitCodeMismatch (code got : string) : exn :=
  Error ("Expected circuit code: '" +:+ code +:+ "', got '" +:+ got +:+ "'.").

Section Protocol.
Context {DID : Type} (env : Env DID).

Local Open Scope run_scope.

(** Modelled from the spec: [callApi] is defined in ./lib/tool, outside
    this module.  The specification describes the awaited call as a
    suspension point that simulates latency: it yields no value and does
    not fail. *)
Definition callApi : Run DID unit := call EcallApi (Normal tt).

(** [generateZKProof(zkCred, code)], lines 17-32. *)
Definition generateZKProof (zkCred : ZKCredential.t DID) (code : string) : Run DID ZKProof.t :=
  callApi ;;
  circuit <- call (EgetCircuit (ZKCredential.purpose zkCred) code)
                  (getCircuit env (ZKCredential.purpose zkCred) code) ;;
  if negb (String.eqb code (toCode circuit)) then
    throw (CircuitCodeMismatch code (toCode circuit))
  else
    ret (ZKProof.Mk code (ZKCredential.credential zkCred) (ZKCredential.commitment zkCred)).

(** [_generateSignedZKProof(zkCred, code)], lines 42-51. *)
Definition _generateSignedZKProof (zkCred : ZKCredential.t DID) (code : string)
  : Run DID SignedZKProof.t :=
  body <- generateZKProof zkCred code ;;
  let signature := "some_signature" in
  ret (SignedZKProof.Mk body signature).

(** Lines 81-85 of [verifyZKProof]: Base64-decode the payload, parse it,
    and copy the entries of the parsed value into a fresh [Map]. *)
Definition decodeFieldPayload (payload : string) : Run DID FieldMapping :=
  text <- call (EBase64_decode payload) (Base64_decode env payload) ;;
  credObj <- call (EJSON_parse text) (JSON_parse env text) ;;
  match Object_entries credObj with
  | Throw e => throw e
  | Normal entries => ret (Map_set_all ∅ entries)
  end.

(** [verifyZKProof(zkProof, prover, purpose)], lines 60-87. *)
Definition verifyZKProof (zkProof : ZKProof.t) (prover purpose : string) : Run DID bool :=
  d <- call (EgetDID prover) (getDID env prover) ;;
  zkCred <- call (EgetZKCredential d purpose) (getZKCredential env d purpose) ;;
  same <- call (EdidEqual (ZKCredential.did zkCred) d)
               (Normal (didEqual env (ZKCredential.did zkCred) d)) ;;
  if negb same then throw ProverMismatch else
  if negb (String.eqb (ZKCredential.purpose zkCred) purpose) then throw PurposeMismatch else
  if negb (String.eqb (ZKCredential.commitment zkCred) (ZKProof.commitment zkProof))
  then throw CommitmentMismatch else
  circuit <- call (EgetCircuit purpose (ZKProof.code zkProof))
                  (getCircuit env purpose (ZKProof.code zkProof)) ;;
  fields <- decodeFieldPayload (ZKProof.proof zkProof) ;;
  call (Everify circuit fields) (verify circuit fields).

(** [_verifySignedZKProof(signed, purpose)], lines 96-100. *)
Definition _verifySignedZKProof (signed : SignedZKProof.t) (purpose : string) : Run DID bool :=
  let address := "some_recovered_address" in
  verifyZKProof (SignedZKProof.body signed) address purpose.

(** ** The protocol of the specification *)

Implicit Types (zkProof : ZKProof.t) (zkCred : ZKCredential.t DID).
Implicit Types (prover purpose code payload text : string).
Implicit Types (circuit : Circuit) (fields : FieldMapping) (e : exn).

(** The three ways lines 81-85 can end. *)
Inductive decode_result payload : Run DID FieldMapping -> Prop :=
| decode_base64_throws e :
    Base64_decode env payload = Throw e ->
    decode_result payload ([EBase64_decode payload], Throw e)
| decode_parse_throws text e :
    Base64_decode env payload = Normal text ->
    JSON_parse env text = Throw e ->
    decode_result payload ([EBase64_decode payload; EJSON_parse text], Throw e)
| decode_parsed text credObj :
    Base64_decode env payload = Normal text ->
    JSON_parse env text = Normal credObj ->
    decode_result payload
      ([EBase64_decode payload; EJSON_parse text],
       match Object_entries credObj with
       | Normal entries => Normal (Map_set_all ∅ entries)
       | Throw e => Throw e
       end).

(** The calls of stages 1 to 3. *)
Definition binding_calls prover purpose (d : DID) zkCred : list (Event DID) :=
  [EgetDID prover; EgetZKCredential d purpose; EdidEqual (ZKCredential.did zkCred) d].

(** The verification protocol as the specification lists it (section
    4.4): eight stages in a fixed order, each of which ends the run when it
    fails.  [verify_stages zkProof prover purpose run] holds when [run] is
    what that protocol does: the calls of the stages up to and including
    the first failing one, and the failure of that stage; or the calls of
    all stages and the value of the predicate. *)
Inductive verify_stages zkProof prover purpose : Run DID bool -> Prop :=
| fails_at_1_resolve_DID e :
    getDID env prover = Throw e ->
    verify_stages zkProof prover purpose ([EgetDID prover], Throw e)
| fails_at_2_resolve_credential d e :
    getDID env prover = Normal d ->
    getZKCredential env d purpose = Throw e ->
    verify_stages zkProof prover purpose
      ([EgetDID prover; EgetZKCredential d purpose], Throw e)
| fails_at_3_identity_binding d zkCred :
    getDID env prover = Normal d ->
    getZKCredential env d purpose = Normal zkCred ->
    didEqual env (ZKCredential.did zkCred) d = false ->
    verify_stages zkProof prover purpose
      (binding_calls prover purpose d zkCred, Throw ProverMismatch)
| fails_at_4_purpose_binding d zkCred :
    getDID env prover = Normal d ->
    getZKCredential env d purpose = Normal zkCred ->
    didEqual env (ZKCredential.did zkCred) d = true ->
    ZKCredential.purpose zkCred <> purpose ->
    verify_stages zkProof prover purpose
      (binding_calls prover purpose d zkCred, Throw PurposeMismatch)
| fails_at_5_commitment_binding d zkCred :
    getDID env prover = Normal d ->
    getZKCredential env d purpose = Normal zkCred ->
    didEqual env (ZKCredential.did zkCred) d = true ->
    ZKCredential.purpose zkCred = purpose ->
    ZKCredential.commitment zkCred <> ZKProof.commitment zkProof ->
    verify_stages zkProof prover purpose
      (binding_calls prover purpose d zkCred, Throw CommitmentMismatch)
| fails_at_6_circuit_resolution d zkCred e :
    getDID env prover = Normal d ->
    getZKCredential env d purpose = Normal zkCred ->
    didEqual env (ZKCredential.did zkCred) d = true ->
    ZKCredential.purpose zkCred = purpose ->
    ZKCredential.commitment zkCred = ZKProof.commitment zkProof ->
    getCircuit env purpose (ZKProof.code zkProof) = Throw e ->
    verify_stages zkProof prover purpose
      (binding_calls prover purpose d zkCred ++ [EgetCircuit purpose (ZKProof.code zkProof)],
       Throw e)
| fails_at_7_decode_payload d zkCred circuit e :
    getDID env prover = Normal d ->
    getZKCredential env d purpose = Normal zkCred ->
    didEqual env (ZKCredential.did zkCred) d = true ->
    ZKCredential.purpose zkCred = purpose ->
    ZKCredential.commitment zkCred = ZKProof.commitment zkProof ->
    getCircuit env purpose (ZKProof.code zkProof) = Normal circuit ->
    outcome (decodeFieldPayload (ZKProof.proof zkProof)) = Throw e ->
    verify_stages zkProof prover purpose
      (binding_calls prover purpose d zkCred
         ++ [EgetCircuit purpose (ZKProof.code zkProof)]
         ++ calls (decodeFieldPayload (ZKProof.proof zkProof)),
       Throw e)
| reaches_8_predicate_evaluation d zkCred circuit fields :
    getDID env prover = Normal d ->
    getZKCredential env d purpose = Normal zkCred ->
    didEqual env (ZKCredential.did zkCred) d = true ->
    ZKCredential.purpose zkCred = purpose ->
    ZKCredential.commitment zkCred = ZKProof.commitment zkProof ->
    getCircuit env purpose (ZKProof.code zkProof) = Normal circuit ->
    outcome (decodeFieldPayload (ZKProof.proof zkProof)) = Normal fields ->
    verify_stages zkProof prover purpose
      (binding_calls prover purpose d zkCred
         ++ [EgetCircuit purpose (ZKProof.code zkProof)]
         ++ calls (decodeFieldPayload (ZKProof.proof zkProof))
         ++ [Everify circuit fields],
       verify circuit fields).

End Protocol.

(** [env] with its credential store replaced by [store]. *)
Definition with_store {DID} (env : Env DID)
    (store : DID -> string -> Completion (ZKCredential.t DID)) : Env DID :=
  MkEnv (getDID env) store (didEqual env) (getCircuit env) (Base64_decode env) (JSON_parse env).

(** Two answers of a credential store that differ at most in the stored
    field blob [credential]. *)
Definition same_but_blob {DID} (a b : Completion (ZKCredential.t DID)) : Prop :=
  match a, b with
  | Normal x, Normal y =>
      ZKCredential.did x = ZKCredential.did y
      /\ ZKCredential.purpose x = ZKCredential.purpose y
      /\ ZKCredential.commitment x = ZKCredential.commitment y
  | Throw e1, Throw e2 => e1 = e2
  | _, _ => False
  end.

Definition is_number_or_boolean (v : JSON) : bool :=
  match v with
  | JBool _ | JNumber _ => true
  | _ => false
  end.

(** Some signed proof has an outcome that changes with its signature. *)
Definition outcome_depends_on_signature {DID} (env : Env DID) : Prop :=
  exists (body : ZKProof.t) (sig1 sig2 purpose : string),
    outcome (_verifySignedZKProof env (SignedZKProof.Mk body sig1) purpose)
    <> outcome (_verifySignedZKProof env (SignedZKProof.Mk body sig2) purpose).

(** The order in which [verifyZKProof] calls out of the module. *)
Definition verify_call_order : list string :=
  ["getDID"; "getZKCredential"; "didEqual"; "getCircuit"; "Base64.decode"; "JSON.parse";
   "circuit.verify"].

(** ** A concrete deployment

    The scenario of the specification: the credential of [did:ex:1] for
    the purpose [age-check] with commitment [C1], and the circuit
    [AGE_GTE_18] whose predicate is [fields["age"] >= 18]. *)
Module Scenario.

Definition dq : string := String (Ascii.ascii_of_nat 34) EmptyString.

(** [fields.get("age") >= 18]; an absent or non-numeric field gives [false]. *)
Definition age_gte_18 : Circuit :=
  MkCircuit "AGE_GTE_18"
    (fun fields =>
       match fields !! "age" with
       | Some (JNumber n) => Normal (PrimFloat.leb 18 n)
       | _ => Normal false
       end).

Definition alice : ZKCredential.t string :=
  ZKCredential.Mk "did:ex:1" "age-check" "eyJhZ2UiOjI1fQ==" "C1".

(** The same record with another stored blob (age 10). *)
Definition alice_other_blob : ZKCredential.t string :=
  ZKCredential.Mk "did:ex:1" "age-check" "eyJhZ2UiOjEwfQ==" "C1".

Definition lookup_or_throw {A} (table : gmap string A) (e : exn) (key : string) : Completion A :=
  match table !! key with
  | Some a => Normal a
  | None => Throw e
  end.

(** [Base64.decode] at the payloads used below. *)
Definition base64_table : gmap string string :=
  list_to_map
    [ ("eyJhZ2UiOjI1fQ==", "{" +:+ dq +:+ "age" +:+ dq +:+ ":25}");
      ("eyJhZ2UiOjEwfQ==", "{" +:+ dq +:+ "age" +:+ dq +:+ ":10}");
      ("bnVsbA==", "null");
      ("ImFiIg==", dq +:+ "ab" +:+ dq);
      ("IiI=", dq +:+ dq);
      ("NQ==", "5");
      ("dHJ1ZQ==", "true");
      ("bm90IGpzb24=", "not json") ].

(** [JSON.parse] at the texts used below; [not json] is not JSON. *)
Definition json_table : gmap string JSON :=
  list_to_map
    [ ("{" +:+ dq +:+ "age" +:+ dq +:+ ":25}", JObject [("age", JNumber 25)]);
      ("{" +:+ dq +:+ "age" +:+ dq +:+ ":10}", JObject [("age", JNumber 10)]);
      ("null", JNull);
      (dq +:+ "ab" +:+ dq, JString "ab");
      (dq +:+ dq, JString "");
      ("5", JNumber 5);
      ("true", JBool true) ].

(** The registry also resolves the retired code [AGE_GTE] to the current
    circuit. *)
Definition registry (purpose code : string) : Completion Circuit :=
  if String.eqb purpose "age-check" && (String.eqb code "AGE_GTE_18" || String.eqb code "AGE_GTE")
  then Normal age_gte_18
  else Throw (Error "Circuit not found").

Definition store_of (cred : ZKCredential.t string) (d purpose : string)
  : Completion (ZKCredential.t string) :=
  if String.eqb d "did:ex:1" && String.eqb purpose "age-check"
  then Normal cred
  else Throw (Error "Credential not found").

Definition resolver (address : string) : Completion string :=
  if String.eqb address "0xA11CE" || String.eqb address "some_recovered_address"
  then Normal "did:ex:1"
  else Throw (Error "Unknown prover").

Definition env : Env string :=
  MkEnv resolver (store_of alice) String.eqb registry
    (lookup_or_throw base64_table (MkExn "TypeError" "malformed base64."))
    (lookup_or_throw json_table (MkExn "SyntaxError" "Unexpected token o in JSON at position 1")).

(** A store that answers every purpose with the [age-check] credential. *)
Definition loose_env : Env string :=
  with_store env (fun _ _ => Normal alice).

End Scenario.


(** ** Other deployments

    Variations of the scenario: a resolver that does not know the
    placeholder address of [_verifySignedZKProof], a second prover in front
    of a store that is keyed loosely, a credential whose blob is not
    JSON, and a payload that is a JSON array. *)
Module Variants.

Definition strict_resolver (address : string) : Completion string :=
  if String.eqb address "0xA11CE" then Normal "did:ex:1"
  else Throw (Error "Unknown prover").

Definition strict_env : Env string :=
  MkEnv strict_resolver (Scenario.store_of Scenario.alice) String.eqb Scenario.registry
    (Base64_decode Scenario.env) (JSON_parse Scenario.env).

(** The address [0xB0B] resolves to [did:ex:2]; the store answers every
    DID with the credential of [did:ex:1]. *)
Definition bob_resolver (address : string) : Completion string :=
  if String.eqb address "0xB0B" then Normal "did:ex:2" else Scenario.resolver address.

Definition bob_env : Env string :=
  MkEnv bob_resolver (fun _ _ => Normal Scenario.alice) String.eqb Scenario.registry
    (Base64_decode Scenario.env) (JSON_parse Scenario.env).

(** A credential whose blob is the Base64 of the text [not json]. *)
Definition garbled : ZKCredential.t string :=
  ZKCredential.Mk "did:ex:1" "age-check" "bm90IGpzb24=" "C1".

Definition garbled_env : Env string :=
  with_store Scenario.env (Scenario.store_of garbled).

(** [WzE4LDI1XQ==] is the Base64 of the text [[18,25]]. *)
Definition array_env : Env string :=
  MkEnv Scenario.resolver (Scenario.store_of Scenario.alice) String.eqb Scenario.registry
    (Scenario.lookup_or_throw {[ "WzE4LDI1XQ==" := "[18,25]" ]}
       (MkExn "TypeError" "malformed base64."))
    (Scenario.lookup_or_throw {[ "[18,25]" := JArray [JNumber 18; JNumber 25] ]}
       (MkExn "SyntaxError" "Unexpected token o in JSON at position 1")).

End Variants.

(** * Properties *)

Section Properties.
Context {DID : Type} (env : Env DID).

Implicit Types (zkProof : ZKProof.t) (zkCred : ZKCredential.t DID).
Implicit Types (prover purpose code payload text : string).
Implicit Types (circuit : Circuit) (fields : FieldMapping) (e : exn).

(** ** Sequencing *)

Lemma bind_call_Normal {A B} (ev : Event DID) (a : A) (k : A -> Run DID B) :
  bind (call ev (Normal a)) k = (ev :: calls (k a), outcome (k a)).
Proof. unfold bind, call, calls, outcome. by destruct (k a). Qed.

Lemma bind_call_Throw {A B} (ev : Event DID) e (k : A -> Run DID B) :
  bind (call ev (Throw e)) k = ([ev], Throw e).
Proof. done. Qed.

Lemma bind_Normal {A B} (log : list (Event DID)) (a : A) (k : A -> Run DID B) :
  bind (log, Normal a) k = (log ++ calls (k a), outcome (k a)).
Proof. unfold bind, calls, outcome. by destruct (k a). Qed.

Lemma bind_Throw {A B} (log : list (Event DID)) e (k : A -> Run DID B) :
  bind (log, Throw e) k = (log, Throw e).
Proof. done. Qed.

Lemma run_eta {A} (m : Run DID A) : m = (calls m, outcome m).
Proof. by destruct m. Qed.

(** ** Decoding the payload *)

Lemma decodeFieldPayload_result payload :
  decode_result env payload (decodeFieldPayload env payload).
Proof.
  unfold decodeFieldPayload.
  destruct (Base64_decode env payload) as [text|e] eqn:Hb.
  - rewrite bind_call_Normal.
    destruct (JSON_parse env text) as [credObj|e] eqn:Hj.
    + rewrite bind_call_Normal.
      replace (_ :: _, _) with
        ([EBase64_decode payload; EJSON_parse (DID:=DID) text],
         match Object_entries credObj with
         | Normal entries => Normal (Map_set_all ∅ entries)
         | Throw e => Throw e
         end); [by eapply decode_parsed|].
      by destruct (Object_entries credObj).
    + rewrite bind_call_Throw. by eapply decode_parse_throws.
  - rewrite bind_call_Throw. by apply decode_base64_throws.
Qed.

Lemma decodeFieldPayload_calls payload :
  callee <$> calls (decodeFieldPayload env payload) = ["Base64.decode"]
  \/ callee <$> calls (decodeFieldPayload env payload) = ["Base64.decode"; "JSON.parse"].
Proof. destruct (decodeFieldPayload_result payload); auto. Qed.

Lemma decodeFieldPayload_Normal_calls payload fields :
  outcome (decodeFieldPayload env payload) = Normal fields ->
  callee <$> calls (decodeFieldPayload env payload) = ["Base64.decode"; "JSON.parse"].
Proof. by destruct (decodeFieldPayload_result payload). Qed.

Lemma decodeFieldPayload_parsed payload text credObj :
  Base64_decode env payload = Normal text ->
  JSON_parse env text = Normal credObj ->
  decodeFieldPayload env payload
  = ([EBase64_decode payload; EJSON_parse text],
     match Object_entries credObj with
     | Normal entries => Normal (Map_set_all ∅ entries)
     | Throw e => Throw e
     end).
Proof.
  intros Hb Hj. unfold decodeFieldPayload.
  rewrite Hb, bind_call_Normal, Hj, bind_call_Normal.
  by destruct (Object_entries credObj).
Qed.

(** ** The stages of verification *)

(** The source runs the protocol of the specification. *)
Lemma verifyZKProof_stages zkProof prover purpose :
  verify_stages env zkProof prover purpose (verifyZKProof env zkProof prover purpose).
Proof.
  unfold verifyZKProof.
  destruct (getDID env prover) as [d|e] eqn:Hdid;
    [rewrite bind_call_Normal | by apply fails_at_1_resolve_DID].
  destruct (getZKCredential env d purpose) as [zkCred|e] eqn:Hcred;
    [rewrite bind_call_Normal | by eapply fails_at_2_resolve_credential].
  rewrite bind_call_Normal.
  destruct (didEqual env (ZKCredential.did zkCred) d) eqn:Hsame; cbn [negb];
    [| by apply fails_at_3_identity_binding].
  destruct (String.eqb_spec (ZKCredential.purpose zkCred) purpose) as [Hp|Hp]; cbn [negb];
    [| by apply fails_at_4_purpose_binding].
  destruct (String.eqb_spec (ZKCredential.commitment zkCred) (ZKProof.commitment zkProof))
    as [Hc|Hc]; cbn [negb]; [| by apply fails_at_5_commitment_binding].
  destruct (getCircuit env purpose (ZKProof.code zkProof)) as [circuit|e] eqn:Hcirc;
    [rewrite bind_call_Normal | by eapply fails_at_6_circuit_resolution].
  rewrite (run_eta (decodeFieldPayload env (ZKProof.proof zkProof))).
  destruct (outcome (decodeFieldPayload env (ZKProof.proof zkProof))) as [fields|e] eqn:Hdec.
  - rewrite bind_Normal. simpl.
    by eapply (reaches_8_predicate_evaluation _ _ _ _ d zkCred circuit fields).
  - rewrite bind_Throw. simpl.
    by eapply (fails_at_7_decode_payload _ _ _ _ d zkCred circuit e).
Qed.

(** Case analysis on a run of [verifyZKProof], with the stage conditions
    that contradict the hypotheses discarded. *)
Ltac by_stages :=
  match goal with
  | |- context [verifyZKProof ?E ?p ?a ?u] =>
      destruct (verifyZKProof_stages p a u)
  end;
  simplify_eq; try done; try congruence.

Lemma verifyZKProof_purpose_mismatch zkProof prover purpose d zkCred :
  getDID env prover = Normal d ->
  getZKCredential env d purpose = Normal zkCred ->
  didEqual env (ZKCredential.did zkCred) d = true ->
  ZKCredential.purpose zkCred <> purpose ->
  verifyZKProof env zkProof prover purpose
  = (binding_calls prover purpose d zkCred, Throw PurposeMismatch).
Proof. intros. by_stages. Qed.

Lemma verifyZKProof_commitment_mismatch zkProof prover purpose d zkCred :
  getDID env prover = Normal d ->
  getZKCredential env d purpose = Normal zkCred ->
  didEqual env (ZKCredential.did zkCred) d = true ->
  ZKCredential.purpose zkCred = purpose ->
  ZKCredential.commitment zkCred <> ZKProof.commitment zkProof ->
  verifyZKProof env zkProof prover purpose
  = (binding_calls prover purpose d zkCred, Throw CommitmentMismatch).
Proof. intros. by_stages. Qed.

Lemma verifyZKProof_decode_throws zkProof prover purpose d zkCred circuit e :
  getDID env prover = Normal d ->
  getZKCredential env d purpose = Normal zkCred ->
  didEqual env (ZKCredential.did zkCred) d = true ->
  ZKCredential.purpose zkCred = purpose ->
  ZKCredential.commitment zkCred = ZKProof.commitment zkProof ->
  getCircuit env purpose (ZKProof.code zkProof) = Normal circuit ->
  outcome (decodeFieldPayload env (ZKProof.proof zkProof)) = Throw e ->
  verifyZKProof env zkProof prover purpose
  = (binding_calls prover purpose d zkCred
       ++ [EgetCircuit purpose (ZKProof.code zkProof)]
       ++ calls (decodeFieldPayload env (ZKProof.proof zkProof)),
     Throw e).
Proof. intros. by_stages. Qed.

Lemma verifyZKProof_evaluates zkProof prover purpose d zkCred circuit fields :
  getDID env prover = Normal d ->
  getZKCredential env d purpose = Normal zkCred ->
  didEqual env (ZKCredential.did zkCred) d = true ->
  ZKCredential.purpose zkCred = purpose ->
  ZKCredential.commitment zkCred = ZKProof.commitment zkProof ->
  getCircuit env purpose (ZKProof.code zkProof) = Normal circuit ->
  outcome (decodeFieldPayload env (ZKProof.proof zkProof)) = Normal fields ->
  verifyZKProof env zkProof prover purpose
  = (binding_calls prover purpose d zkCred
       ++ [EgetCircuit purpose (ZKProof.code zkProof)]
       ++ calls (decodeFieldPayload env (ZKProof.proof zkProof))
       ++ [Everify circuit fields],
     verify circuit fields).
Proof. intros. by_stages. Qed.

(** A run that returns a boolean went through every stage. *)
Lemma verifyZKProof_Normal_inv zkProof prover purpose b :
  outcome (verifyZKProof env zkProof prover purpose) = Normal b ->
  exists d zkCred circuit fields,
    getDID env prover = Normal d
    /\ getZKCredential env d purpose = Normal zkCred
    /\ didEqual env (ZKCredential.did zkCred) d = true
    /\ ZKCredential.purpose zkCred = purpose
    /\ ZKCredential.commitment zkCred = ZKProof.commitment zkProof
    /\ getCircuit env purpose (ZKProof.code zkProof) = Normal circuit
    /\ outcome (decodeFieldPayload env (ZKProof.proof zkProof)) = Normal fields
    /\ verify circuit fields = Normal b.
Proof.
  destruct (verifyZKProof_stages zkProof prover purpose); cbn [outcome snd]; try done.
  intros Hb. by exists d, zkCred, circuit, fields.
Qed.

(** The callees of a run of [verifyZKProof] are an initial segment of
    [verify_call_order]. *)
Lemma verifyZKProof_call_order zkProof prover purpose :
  exists n, callee <$> calls (verifyZKProof env zkProof prover purpose)
            = take n verify_call_order.
Proof.
  destruct (verifyZKProof_stages zkProof prover purpose) as
    [ | | | | | |d zkCred circuit e ?????? Hdec|d zkCred circuit fields ?????? Hdec];
    cbn [calls fst].
  - by exists 1.
  - by exists 2.
  - by exists 3.
  - by exists 3.
  - by exists 3.
  - by exists 4.
  - rewrite !fmap_app.
    destruct (decodeFieldPayload_calls (ZKProof.proof zkProof)) as [-> | ->];
      [by exists 5 | by exists 6].
  - rewrite !fmap_app, (decodeFieldPayload_Normal_calls _ _ Hdec). by exists 7.
Qed.

(** ** Verification: order of the stages, binding checks, failures *)

(** C2: verification goes through its eight stages in the order DID
    resolution, credential lookup, identity binding, purpose binding,
    commitment binding, circuit resolution, payload decode, predicate
    evaluation, and a failing stage ends the run: the run is one of the
    cases of [verify_stages], and the functions it calls are an initial
    segment of [verify_call_order].  In particular, when the credential that
    was looked up has another purpose than the one given, the run throws
    [PurposeMismatch] after the calls of stages 1 to 3 and [getCircuit] is
    not called. *)
Theorem verify_stages_in_order_short_circuit zkProof prover purpose :
  let run := verifyZKProof env zkProof prover purpose in
  verify_stages env zkProof prover purpose run
  /\ (exists n, callee <$> calls run = take n verify_call_order)
  /\ (forall d zkCred,
        getDID env prover = Normal d ->
        getZKCredential env d purpose = Normal zkCred ->
        didEqual env (ZKCredential.did zkCred) d = true ->
        ZKCredential.purpose zkCred <> purpose ->
        run = (binding_calls prover purpose d zkCred, Throw PurposeMismatch)
        /\ "getCircuit" ∉ callee <$> calls run).
Proof.
  cbv zeta. split; [apply verifyZKProof_stages|].
  split; [apply verifyZKProof_call_order|].
  intros d zkCred Hdid Hcred Hsame Hpurpose.
  rewrite (verifyZKProof_purpose_mismatch _ _ _ _ _ Hdid Hcred Hsame Hpurpose).
  split; [done|]. cbn.
  rewrite !not_elem_of_cons. repeat split; [done..|apply not_elem_of_nil].
Qed.

(** C3: when the commitment of the proof differs from the commitment of
    the credential looked up for the resolved DID and the given purpose,
    verification throws [CommitmentMismatch] right after the binding
    checks, whatever the payload of the proof and whatever circuit its code
    names: neither the registry nor the decoder nor a predicate is
    consulted. *)
Theorem verify_commitment_mismatch zkProof prover purpose d zkCred :
  getDID env prover = Normal d ->
  getZKCredential env d purpose = Normal zkCred ->
  didEqual env (ZKCredential.did zkCred) d = true ->
  ZKCredential.purpose zkCred = purpose ->
  ZKCredential.commitment zkCred <> ZKProof.commitment zkProof ->
  verifyZKProof env zkProof prover purpose
  = (binding_calls prover purpose d zkCred, Throw CommitmentMismatch).
Proof. apply verifyZKProof_commitment_mismatch. Qed.

(** C6: verification does not answer [false] for a violated precondition.
    A run that returns a boolean has passed every stage from 1 to 7 and
    the boolean is the one the predicate of the circuit returned on the
    decoded fields; and when the payload cannot be decoded the run ends
    with a thrown exception, which is the decoder's own once stages 1 to 6
    have passed. *)
Theorem verify_boolean_only_from_predicate zkProof prover purpose :
  let run := verifyZKProof env zkProof prover purpose in
  (forall b, outcome run = Normal b ->
     exists d zkCred circuit fields,
       getDID env prover = Normal d
       /\ getZKCredential env d purpose = Normal zkCred
       /\ didEqual env (ZKCredential.did zkCred) d = true
       /\ ZKCredential.purpose zkCred = purpose
       /\ ZKCredential.commitment zkCred = ZKProof.commitment zkProof
       /\ getCircuit env purpose (ZKProof.code zkProof) = Normal circuit
       /\ outcome (decodeFieldPayload env (ZKProof.proof zkProof)) = Normal fields
       /\ verify circuit fields = Normal b)
  /\ (forall e, outcome (decodeFieldPayload env (ZKProof.proof zkProof)) = Throw e ->
       is_Normal (outcome run) = false
       /\ (forall d zkCred circuit,
             getDID env prover = Normal d ->
             getZKCredential env d purpose = Normal zkCred ->
             didEqual env (ZKCredential.did zkCred) d = true ->
             ZKCredential.purpose zkCred = purpose ->
             ZKCredential.commitment zkCred = ZKProof.commitment zkProof ->
             getCircuit env purpose (ZKProof.code zkProof) = Normal circuit ->
             outcome run = Throw e)).
Proof.
  cbv zeta. split; [apply verifyZKProof_Normal_inv|].
  intros e Hdec. split.
  - destruct (outcome (verifyZKProof env zkProof prover purpose)) as [b|e'] eqn:Hrun; [|done].
    apply verifyZKProof_Normal_inv in Hrun as (?&?&?&?&?&?&?&?&?&?&?&?). congruence.
  - intros d zkCred circuit Hdid Hcred Hsame Hp Hc Hcirc.
    by rewrite (verifyZKProof_decode_throws _ _ _ _ _ _ _ Hdid Hcred Hsame Hp Hc Hcirc Hdec).
Qed.

(** ** Generation *)

(** The two ways [generateZKProof] ends once the registry has answered. *)
Lemma generateZKProof_resolved zkCred code circuit :
  getCircuit env (ZKCredential.purpose zkCred) code = Normal circuit ->
  generateZKProof env zkCred code
  = ([EcallApi; EgetCircuit (ZKCredential.purpose zkCred) code],
     if String.eqb code (toCode circuit)
     then Normal (ZKProof.Mk code (ZKCredential.credential zkCred)
                    (ZKCredential.commitment zkCred))
     else Throw (CircuitCodeMismatch code (toCode circuit))).
Proof.
  intros Hcirc. unfold generateZKProof, callApi.
  rewrite bind_call_Normal, Hcirc, bind_call_Normal.
  by destruct (String.eqb code (toCode circuit)).
Qed.

Lemma generateZKProof_not_resolved zkCred code e :
  getCircuit env (ZKCredential.purpose zkCred) code = Throw e ->
  generateZKProof env zkCred code
  = ([EcallApi; EgetCircuit (ZKCredential.purpose zkCred) code], Throw e).
Proof.
  intros Hcirc. unfold generateZKProof, callApi.
  by rewrite bind_call_Normal, Hcirc, bind_call_Throw.
Qed.

Lemma generateZKProof_Normal_inv zkCred code zkProof :
  outcome (generateZKProof env zkCred code) = Normal zkProof ->
  exists circuit,
    getCircuit env (ZKCredential.purpose zkCred) code = Normal circuit
    /\ toCode circuit = code
    /\ zkProof = ZKProof.Mk code (ZKCredential.credential zkCred)
                   (ZKCredential.commitment zkCred).
Proof.
  destruct (getCircuit env (ZKCredential.purpose zkCred) code) as [circuit|e] eqn:Hcirc.
  - rewrite (generateZKProof_resolved _ _ _ Hcirc). cbn [outcome snd].
    destruct (String.eqb_spec code (toCode circuit)) as [Heq|Hne]; [|done].
    intros [= <-]. by exists circuit.
  - by rewrite (generateZKProof_not_resolved _ _ _ Hcirc).
Qed.

(** C4: when the registry has a circuit for the purpose of the credential
    and the given code, and that circuit reproduces the code, generation
    succeeds, and the proof carries the commitment of the credential and
    the given code. *)
Theorem generate_succeeds zkCred code circuit :
  getCircuit env (ZKCredential.purpose zkCred) code = Normal circuit ->
  toCode circuit = code ->
  exists zkProof,
    outcome (generateZKProof env zkCred code) = Normal zkProof
    /\ ZKProof.commitment zkProof = ZKCredential.commitment zkCred
    /\ ZKProof.code zkProof = code.
Proof.
  intros Hcirc Hcode.
  rewrite (generateZKProof_resolved _ _ _ Hcirc), Hcode, String.eqb_refl.
  by eexists.
Qed.

(** C5: when the circuit resolved from the registry does not reproduce the
    given code, generation throws [CircuitCodeMismatch] and returns no
    proof. *)
Theorem generate_code_mismatch zkCred code circuit :
  getCircuit env (ZKCredential.purpose zkCred) code = Normal circuit ->
  code <> toCode circuit ->
  outcome (generateZKProof env zkCred code)
  = Throw (CircuitCodeMismatch code (toCode circuit))
  /\ is_Normal (outcome (generateZKProof env zkCred code)) = false.
Proof.
  intros Hcirc Hcode.
  rewrite (generateZKProof_resolved _ _ _ Hcirc).
  by destruct (String.eqb_spec code (toCode circuit)).
Qed.

(** C8: generation does no encoding of its own: the [proof] field of a
    generated proof is the [credential] blob of the credential, as it is. *)
Theorem generate_proof_is_credential_blob zkCred code zkProof :
  outcome (generateZKProof env zkCred code) = Normal zkProof ->
  ZKProof.proof zkProof = ZKCredential.credential zkCred.
Proof. intros (circuit & _ & _ & ->)%generateZKProof_Normal_inv. done. Qed.

(** ** Generation followed by verification *)

(** C1: let [fields] be the field mapping the credential blob encodes,
    that is, the mapping the decoder yields on it.  When generation
    succeeds, verifying the generated proof for a prover address that
    resolves to the DID of the credential, with the purpose of the
    credential, against a store that holds the credential, has the outcome
    of the predicate of the resolved circuit on [fields]. *)
Theorem verify_generated_proof zkCred code zkProof prover fields :
  outcome (generateZKProof env zkCred code) = Normal zkProof ->
  getDID env prover = Normal (ZKCredential.did zkCred) ->
  getZKCredential env (ZKCredential.did zkCred) (ZKCredential.purpose zkCred)
  = Normal zkCred ->
  didEqual env (ZKCredential.did zkCred) (ZKCredential.did zkCred) = true ->
  outcome (decodeFieldPayload env (ZKCredential.credential zkCred)) = Normal fields ->
  exists circuit,
    getCircuit env (ZKCredential.purpose zkCred) code = Normal circuit
    /\ outcome (verifyZKProof env zkProof prover (ZKCredential.purpose zkCred))
       = verify circuit fields.
Proof.
  intros (circuit & Hcirc & Hcode & ->)%generateZKProof_Normal_inv Hdid Hcred Hsame Hdec.
  exists circuit. split; [done|].
  by rewrite (verifyZKProof_evaluates _ _ _ (ZKCredential.did zkCred) zkCred circuit fields).
Qed.

(** ** Signed proofs *)

(** C7, as the code has it: [_verifySignedZKProof] verifies the body of
    the signed proof for the fixed address [some_recovered_address] and the
    given purpose.  It does not read the signature: the run is the same for
    every signature. *)
Theorem verifySigned_uses_fixed_address (signed : SignedZKProof.t) purpose :
  _verifySignedZKProof env signed purpose
  = verifyZKProof env (SignedZKProof.body signed) "some_recovered_address" purpose
  /\ (forall sig : string,
        _verifySignedZKProof env (SignedZKProof.Mk (SignedZKProof.body signed) sig) purpose
        = _verifySignedZKProof env signed purpose).
Proof. done. Qed.

(** ** What the verifier reads *)

(** C9: the stored field blob of the credential plays no part in
    verification.  With two credential stores whose answers for the
    resolved DID and the given purpose agree up to the blob, the runs of
    [verifyZKProof] are the same: same calls, same outcome. *)
Theorem verify_ignores_stored_blob
    (store1 store2 : DID -> string -> Completion (ZKCredential.t DID))
    zkProof prover purpose :
  (forall d, getDID env prover = Normal d ->
             same_but_blob (store1 d purpose) (store2 d purpose)) ->
  verifyZKProof (with_store env store1) zkProof prover purpose
  = verifyZKProof (with_store env store2) zkProof prover purpose.
Proof.
  intros Hstores. unfold verifyZKProof, with_store; cbn [getDID getZKCredential didEqual getCircuit].
  destruct (getDID env prover) as [d|e] eqn:Hdid; [|done].
  rewrite !bind_call_Normal. specialize (Hstores d eq_refl).
  destruct (store1 d purpose) as [[d1 p1 blob1 c1]|e1], (store2 d purpose) as [[d2 p2 blob2 c2]|e2];
    cbn in Hstores; try done.
  - destruct Hstores as (-> & -> & ->). done.
  - by subst.
Qed.

(** C10, as the code has it: a payload that decodes and parses to a
    number or to a boolean passes the decoding stage, since such a value
    has no entries: once stages 1 to 6 have passed, the predicate of the
    circuit is evaluated on the empty mapping and its outcome is the
    outcome of verification. *)
Theorem verify_number_or_boolean_payload zkProof prover purpose d zkCred circuit text v :
  getDID env prover = Normal d ->
  getZKCredential env d purpose = Normal zkCred ->
  didEqual env (ZKCredential.did zkCred) d = true ->
  ZKCredential.purpose zkCred = purpose ->
  ZKCredential.commitment zkCred = ZKProof.commitment zkProof ->
  getCircuit env purpose (ZKProof.code zkProof) = Normal circuit ->
  Base64_decode env (ZKProof.proof zkProof) = Normal text ->
  JSON_parse env text = Normal v ->
  is_number_or_boolean v = true ->
  verifyZKProof env zkProof prover purpose
  = (binding_calls prover purpose d zkCred
       ++ [EgetCircuit purpose (ZKProof.code zkProof);
           EBase64_decode (ZKProof.proof zkProof); EJSON_parse text;
           Everify circuit ∅],
     verify circuit ∅).
Proof.
  intros Hdid Hcred Hsame Hp Hc Hcirc Hb Hj Hv.
  assert (decodeFieldPayload env (ZKProof.proof zkProof)
          = ([EBase64_decode (ZKProof.proof zkProof); EJSON_parse text], Normal ∅)) as Hdec.
  { rewrite (decodeFieldPayload_parsed _ _ _ Hb Hj). by destruct v. }
  rewrite (verifyZKProof_evaluates _ _ _ d zkCred circuit ∅); try done.
  - by rewrite Hdec.
  - by rewrite Hdec.
Qed.

End Properties.

(** * The properties on the scenario of the specification *)

(** Generating from the credential of [did:ex:1] for the code [AGE_GTE_18]
    and verifying for the address [0xA11CE] evaluates the predicate on
    [{age: 25}]. *)
Lemma verify_generated_proof_scenario :
  exists circuit,
    getCircuit Scenario.env (ZKCredential.purpose Scenario.alice) "AGE_GTE_18" = Normal circuit
    /\ outcome (verifyZKProof Scenario.env
                  (ZKProof.Mk "AGE_GTE_18" "eyJhZ2UiOjI1fQ==" "C1")
                  "0xA11CE" (ZKCredential.purpose Scenario.alice))
       = verify circuit {[ "age" := JNumber 25 ]}.
Proof.
  apply (verify_generated_proof Scenario.env Scenario.alice "AGE_GTE_18"
           (ZKProof.Mk "AGE_GTE_18" "eyJhZ2UiOjI1fQ==" "C1") "0xA11CE"
           {[ "age" := JNumber 25 ]});
    vm_compute; reflexivity.
Defined.

(** A store that answers the purpose [income-check] with the [age-check]
    credential: [PurposeMismatch], and the registry is not consulted. *)
Lemma verify_purpose_mismatch_scenario :
  verifyZKProof Scenario.loose_env (ZKProof.Mk "AGE_GTE_18" "eyJhZ2UiOjI1fQ==" "C1")
    "0xA11CE" "income-check"
  = (binding_calls "0xA11CE" "income-check" "did:ex:1" Scenario.alice, Throw PurposeMismatch)
  /\ "getCircuit" ∉ callee <$> calls (verifyZKProof Scenario.loose_env
                                         (ZKProof.Mk "AGE_GTE_18" "eyJhZ2UiOjI1fQ==" "C1")
                                         "0xA11CE" "income-check").
Proof.
  apply (proj2 (proj2 (verify_stages_in_order_short_circuit Scenario.loose_env
                         (ZKProof.Mk "AGE_GTE_18" "eyJhZ2UiOjI1fQ==" "C1")
                         "0xA11CE" "income-check")) "did:ex:1" Scenario.alice);
    [reflexivity | reflexivity | reflexivity | discriminate].
Defined.

(** A proof with the commitment [C2] and a payload that satisfies the
    predicate (age 25): [CommitmentMismatch]. *)
Lemma verify_commitment_mismatch_scenario :
  verifyZKProof Scenario.env (ZKProof.Mk "AGE_GTE_18" "eyJhZ2UiOjI1fQ==" "C2")
    "0xA11CE" "age-check"
  = (binding_calls "0xA11CE" "age-check" "did:ex:1" Scenario.alice, Throw CommitmentMismatch).
Proof.
  apply (verify_commitment_mismatch Scenario.env
           (ZKProof.Mk "AGE_GTE_18" "eyJhZ2UiOjI1fQ==" "C2")
           "0xA11CE" "age-check" "did:ex:1" Scenario.alice);
    [reflexivity | reflexivity | reflexivity | reflexivity | discriminate].
Defined.

Lemma generate_succeeds_scenario :
  exists zkProof,
    outcome (generateZKProof Scenario.env Scenario.alice "AGE_GTE_18") = Normal zkProof
    /\ ZKProof.commitment zkProof = ZKCredential.commitment Scenario.alice
    /\ ZKProof.code zkProof = "AGE_GTE_18".
Proof.
  apply (generate_succeeds Scenario.env Scenario.alice "AGE_GTE_18" Scenario.age_gte_18);
    reflexivity.
Defined.

(** The retired code [AGE_GTE] resolves to a circuit whose code is
    [AGE_GTE_18]. *)
Lemma generate_code_mismatch_scenario :
  outcome (generateZKProof Scenario.env Scenario.alice "AGE_GTE")
  = Throw (CircuitCodeMismatch "AGE_GTE" (toCode Scenario.age_gte_18))
  /\ is_Normal (outcome (generateZKProof Scenario.env Scenario.alice "AGE_GTE")) = false.
Proof.
  apply (generate_code_mismatch Scenario.env Scenario.alice "AGE_GTE" Scenario.age_gte_18);
    [reflexivity | discriminate].
Defined.

(** Age 10: the answer is [false], and every precondition holds; a
    payload that is not JSON: the parser's exception, no boolean. *)
Lemma verify_boolean_only_from_predicate_scenario :
  (exists d zkCred circuit fields,
     getDID Scenario.env "0xA11CE" = Normal d
     /\ getZKCredential Scenario.env d "age-check" = Normal zkCred
     /\ didEqual Scenario.env (ZKCredential.did zkCred) d = true
     /\ ZKCredential.purpose zkCred = "age-check"
     /\ ZKCredential.commitment zkCred = "C1"
     /\ getCircuit Scenario.env "age-check" "AGE_GTE_18" = Normal circuit
     /\ outcome (decodeFieldPayload Scenario.env "eyJhZ2UiOjEwfQ==") = Normal fields
     /\ verify circuit fields = Normal false)
  /\ is_Normal (outcome (verifyZKProof Scenario.env
                           (ZKProof.Mk "AGE_GTE_18" "bm90IGpzb24=" "C1")
                           "0xA11CE" "age-check")) = false.
Proof.
  split.
  - apply (proj1 (verify_boolean_only_from_predicate Scenario.env
                    (ZKProof.Mk "AGE_GTE_18" "eyJhZ2UiOjEwfQ==" "C1")
                    "0xA11CE" "age-check") false).
    vm_compute; reflexivity.
  - apply (proj2 (verify_boolean_only_from_predicate Scenario.env
                    (ZKProof.Mk "AGE_GTE_18" "bm90IGpzb24=" "C1")
                    "0xA11CE" "age-check")
             (MkExn "SyntaxError" "Unexpected token o in JSON at position 1")).
    vm_compute; reflexivity.
Defined.

Lemma generate_proof_is_credential_blob_scenario :
  ZKProof.proof (ZKProof.Mk "AGE_GTE_18" "eyJhZ2UiOjI1fQ==" "C1")
  = ZKCredential.credential Scenario.alice.
Proof.
  apply (generate_proof_is_credential_blob Scenario.env Scenario.alice "AGE_GTE_18").
  reflexivity.
Defined.

(** The store holds the blob of age 25 or the blob of age 10; the proof
    carries age 25 in both runs. *)
Lemma verify_ignores_stored_blob_scenario :
  verifyZKProof (with_store Scenario.env (Scenario.store_of Scenario.alice))
    (ZKProof.Mk "AGE_GTE_18" "eyJhZ2UiOjI1fQ==" "C1") "0xA11CE" "age-check"
  = verifyZKProof (with_store Scenario.env (Scenario.store_of Scenario.alice_other_blob))
      (ZKProof.Mk "AGE_GTE_18" "eyJhZ2UiOjI1fQ==" "C1") "0xA11CE" "age-check".
Proof.
  apply (verify_ignores_stored_blob Scenario.env).
  intros d Hd. injection Hd as <-. vm_compute. repeat split.
Defined.

(** The payload [NQ==] is the text [5]. *)
Lemma verify_number_or_boolean_payload_scenario :
  verifyZKProof Scenario.env (ZKProof.Mk "AGE_GTE_18" "NQ==" "C1") "0xA11CE" "age-check"
  = (binding_calls "0xA11CE" "age-check" "did:ex:1" Scenario.alice
       ++ [EgetCircuit "age-check" "AGE_GTE_18"; EBase64_decode "NQ=="; EJSON_parse "5";
           Everify Scenario.age_gte_18 ∅],
     verify Scenario.age_gte_18 ∅).
Proof.
  apply (verify_number_or_boolean_payload Scenario.env
           (ZKProof.Mk "AGE_GTE_18" "NQ==" "C1") "0xA11CE" "age-check"
           "did:ex:1" Scenario.alice Scenario.age_gte_18 "5" (JNumber 5));
    reflexivity.
Defined.

(** ** Where the code departs from the specification *)

(** C7, as stated, fails: no outcome of [_verifySignedZKProof] depends on
    the signature.  In the scenario, where [some_recovered_address] resolves
    to [did:ex:1], a signed proof with an empty signature is verified for
    that address and accepted. *)
Lemma verifySigned_signature_not_read :
  ~ outcome_depends_on_signature Scenario.env
  /\ _verifySignedZKProof Scenario.env
       (SignedZKProof.Mk (ZKProof.Mk "AGE_GTE_18" "eyJhZ2UiOjI1fQ==" "C1") "")
       "age-check"
     = (binding_calls "some_recovered_address" "age-check" "did:ex:1" Scenario.alice
          ++ [EgetCircuit "age-check" "AGE_GTE_18"; EBase64_decode "eyJhZ2UiOjI1fQ==";
              EJSON_parse ("{" +:+ Scenario.dq +:+ "age" +:+ Scenario.dq +:+ ":25}");
              Everify Scenario.age_gte_18 {[ "age" := JNumber 25 ]}],
        Normal true).
Proof.
  split.
  - intros (body & sig1 & sig2 & purpose & Hne). by apply Hne.
  - vm_compute. reflexivity.
Qed.

(** C10, as stated, fails for the scalars [null] and string.  The payload
    [bnVsbA==] is the text [null]: [Object.entries] throws a [TypeError]
    and the predicate is not evaluated.  The payload [ImFiIg==] is the
    JSON string [ab]: the predicate is evaluated on a mapping with one
    field per character. *)
Lemma verify_null_and_string_payload :
  verifyZKProof Scenario.env (ZKProof.Mk "AGE_GTE_18" "bnVsbA==" "C1") "0xA11CE" "age-check"
  = (binding_calls "0xA11CE" "age-check" "did:ex:1" Scenario.alice
       ++ [EgetCircuit "age-check" "AGE_GTE_18"; EBase64_decode "bnVsbA=="; EJSON_parse "null"],
     Throw (TypeError "Cannot convert undefined or null to object"))
  /\ (exists fields,
        last (calls (verifyZKProof Scenario.env (ZKProof.Mk "AGE_GTE_18" "ImFiIg==" "C1")
                       "0xA11CE" "age-check"))
        = Some (Everify Scenario.age_gte_18 fields)
        /\ fields !! "0" = Some (JString "a")
        /\ fields !! "1" = Some (JString "b")
        /\ fields <> ∅).
Proof.
  split; [vm_compute; reflexivity|].
  exists (<["1" := JString "b"]> (<["0" := JString "a"]> ∅)).
  split; [vm_compute; reflexivity|].
  split; [vm_compute; reflexivity|].
  split; [vm_compute; reflexivity|].
  apply insert_non_empty.
Qed.

(** * Further properties of the module *)

(** ** The map of fields (lines 82-85) *)

Lemma Map_set_all_app (fields : FieldMapping) (es1 es2 : list (string * JSON)) :
  Map_set_all fields (es1 ++ es2) = Map_set_all (Map_set_all fields es1) es2.
Proof. apply foldl_app. Qed.

Lemma Map_set_all_untouched (fields : FieldMapping) (es : list (string * JSON)) (k : string) :
  k ∉ es.*1 -> Map_set_all fields es !! k = fields !! k.
Proof.
  revert fields. induction es as [|[k' v'] es IH]; intros fields Hk; [done|].
  cbn in Hk. apply not_elem_of_cons in Hk as [Hne Hk].
  cbn. rewrite IH by done. by rewrite lookup_insert_ne.
Qed.

Lemma Map_set_all_union (fields : FieldMapping) (es : list (string * JSON)) :
  Map_set_all fields es = list_to_map (reverse es) ∪ fields.
Proof.
  revert fields. induction es as [|[k v] es IH]; intros fields.
  - cbn. by rewrite (left_id_L ∅ (∪)).
  - change (Map_set_all fields ((k, v) :: es)) with (Map_set_all (<[k := v]> fields) es).
    rewrite IH, reverse_cons, list_to_map_app, list_to_map_cons, list_to_map_nil.
    rewrite insert_empty, <-(assoc_L (∪)). by rewrite <-insert_union_singleton_l.
Qed.

Lemma Map_set_all_distinct (es : list (string * JSON)) :
  NoDup es.*1 -> Map_set_all ∅ es = list_to_map es.
Proof.
  intros Hnd. rewrite Map_set_all_union, (right_id_L ∅ (∪)).
  symmetry. apply list_to_map_proper; [done|].
  symmetry. apply reverse_Permutation.
Qed.

(** [fields.set] overwrites: after the loop, a key holds the value of its
    last entry. *)
Theorem Map_set_all_last_entry_wins (fields : FieldMapping)
    (es1 es2 : list (string * JSON)) (k : string) (v : JSON) :
  k ∉ es2.*1 ->
  Map_set_all fields (es1 ++ (k, v) :: es2) !! k = Some v.
Proof.
  intros Hk. rewrite Map_set_all_app. cbn.
  rewrite (Map_set_all_untouched _ es2 k Hk). apply lookup_insert_eq.
Qed.

Lemma Map_set_all_last_entry_wins_example :
  Map_set_all ∅ ([("age", JNumber 10)] ++ ("age", JNumber 25) :: [("name", JString "a")])
  !! "age" = Some (JNumber 25).
Proof.
  apply (Map_set_all_last_entry_wins ∅ [("age", JNumber 10)] [("name", JString "a")]
           "age" (JNumber 25)).
  cbn. rewrite not_elem_of_cons. split; [discriminate|apply not_elem_of_nil].
Defined.

(** ** The entries of arrays and strings *)

Lemma array_entries_keys (i : nat) (l : list JSON) :
  (array_entries i l).*1 = pretty <$> seq i (length l).
Proof. revert i. induction l as [|v l IH]; intros i; [done|]. cbn. by rewrite IH. Qed.

Lemma array_entries_lookup (i j : nat) (l : list JSON) :
  array_entries i l !! j = (fun v => (pretty (i + j), v)) <$> l !! j.
Proof.
  revert i j. induction l as [|v l IH]; intros i [|j]; cbn; [done..| |].
  - by rewrite Nat.add_0_r.
  - rewrite IH. by replace (S i + j) with (i + S j) by lia.
Qed.

Lemma array_entries_NoDup (i : nat) (l : list JSON) : NoDup (array_entries i l).*1.
Proof. rewrite array_entries_keys. apply (NoDup_fmap_2 _), NoDup_seq. Qed.


(** The fields built from the entries of an array: the elements, keyed by
    their decimal index. *)
Lemma array_fields_lookup (l : list JSON) (k : string) (v : JSON) :
  Map_set_all ∅ (array_entries 0 l) !! k = Some v
  <-> exists j : nat, k = pretty j /\ l !! j = Some v.
Proof.
  rewrite (Map_set_all_distinct _ (array_entries_NoDup 0 l)).
  rewrite <-(elem_of_list_to_map _ _ _ (array_entries_NoDup 0 l)).
  rewrite list_elem_of_lookup. split.
  - intros [j Hj]. exists j. rewrite array_entries_lookup in Hj.
    destruct (l !! j) as [v'|]; [|done]. by injection Hj as -> ->.
  - intros (j & -> & Hj). exists j. by rewrite array_entries_lookup, Hj.
Qed.

Section Coverage.
Context {DID : Type} (env : Env DID).

Implicit Types (zkProof : ZKProof.t) (zkCred : ZKCredential.t DID).
Implicit Types (signed : SignedZKProof.t).
Implicit Types (prover purpose code payload text : string).
Implicit Types (circuit : Circuit) (fields : FieldMapping) (e : exn).

(** ** Decoding (lines 81-85) *)

(** A payload that parses to an object with distinct property names is
    decoded to the mapping that holds exactly the properties of the
    object. *)
Theorem decode_object_payload payload text (props : list (string * JSON)) :
  Base64_decode env payload = Normal text ->
  JSON_parse env text = Normal (JObject props) ->
  NoDup props.*1 ->
  exists fields,
    outcome (decodeFieldPayload env payload) = Normal fields
    /\ (forall (k : string) (v : JSON), fields !! k = Some v <-> (k, v) ∈ props).
Proof.
  intros Hb Hj Hnd. exists (list_to_map props). split.
  - rewrite (decodeFieldPayload_parsed _ _ _ _ Hb Hj). cbn.
    by rewrite Map_set_all_distinct.
  - intros k v. symmetry. by apply elem_of_list_to_map.
Qed.

(** A payload that parses to an array is not refused: it is decoded to
    the mapping from the decimal indices to the elements. *)
Theorem decode_array_payload payload text (l : list JSON) :
  Base64_decode env payload = Normal text ->
  JSON_parse env text = Normal (JArray l) ->
  exists fields,
    outcome (decodeFieldPayload env payload) = Normal fields
    /\ (forall (k : string) (v : JSON),
          fields !! k = Some v <-> exists j : nat, k = pretty j /\ l !! j = Some v).
Proof.
  intros Hb Hj. exists (Map_set_all ∅ (array_entries 0 l)). split.
  - by rewrite (decodeFieldPayload_parsed _ _ _ _ Hb Hj).
  - apply array_fields_lookup.
Qed.


(** Once the payload has been Base64-decoded and parsed, decoding fails
    for one value only: [null]. *)
Theorem decode_parsed_fails_only_on_null payload text (v : JSON) :
  Base64_decode env payload = Normal text ->
  JSON_parse env text = Normal v ->
  (is_Normal (outcome (decodeFieldPayload env payload)) = false <-> v = JNull).
Proof.
  intros Hb Hj. rewrite (decodeFieldPayload_parsed _ _ _ _ Hb Hj).
  by destruct v.
Qed.

(** ** Generation (lines 17-32) *)


(** Generation succeeds exactly when the registry has a circuit for the
    purpose of the credential and the code, and that circuit reproduces
    the code. *)
Theorem generate_succeeds_iff zkCred code :
  is_Normal (outcome (generateZKProof env zkCred code)) = true
  <-> exists circuit,
        getCircuit env (ZKCredential.purpose zkCred) code = Normal circuit
        /\ toCode circuit = code.
Proof.
  split.
  - destruct (outcome (generateZKProof env zkCred code)) as [zkProof|e] eqn:Hgen; [|done].
    intros _. apply generateZKProof_Normal_inv in Hgen as (circuit & ? & ? & _).
    by exists circuit.
  - intros (circuit & Hcirc & Hcode).
    by rewrite (generateZKProof_resolved _ _ _ _ Hcirc), Hcode, String.eqb_refl.
Qed.

(** When the registry throws, generation throws the same exception. *)
Theorem generate_registry_failure zkCred code e :
  getCircuit env (ZKCredential.purpose zkCred) code = Throw e ->
  outcome (generateZKProof env zkCred code) = Throw e.
Proof. intros Hcirc. by rewrite (generateZKProof_not_resolved _ _ _ _ Hcirc). Qed.

(** Generation does not look into the blob of the credential: a
    credential whose blob the decoder refuses still yields a proof, and
    verifying that proof ends with the exception of the decoder. *)
Theorem generate_does_not_check_blob zkCred code zkProof prover e :
  outcome (generateZKProof env zkCred code) = Normal zkProof ->
  getDID env prover = Normal (ZKCredential.did zkCred) ->
  getZKCredential env (ZKCredential.did zkCred) (ZKCredential.purpose zkCred)
  = Normal zkCred ->
  didEqual env (ZKCredential.did zkCred) (ZKCredential.did zkCred) = true ->
  outcome (decodeFieldPayload env (ZKCredential.credential zkCred)) = Throw e ->
  outcome (verifyZKProof env zkProof prover (ZKCredential.purpose zkCred)) = Throw e.
Proof.
  intros (circuit & Hcirc & Hcode & ->)%generateZKProof_Normal_inv Hdid Hcred Hsame Hdec.
  by rewrite (verifyZKProof_decode_throws _ _ _ _ (ZKCredential.did zkCred) zkCred circuit e).
Qed.

(** ** Signed generation (lines 42-51) *)

Lemma _generateSignedZKProof_unfold zkCred code :
  _generateSignedZKProof env zkCred code
  = (calls (generateZKProof env zkCred code),
     match outcome (generateZKProof env zkCred code) with
     | Normal body => Normal (SignedZKProof.Mk body "some_signature")
     | Throw e => Throw e
     end).
Proof.
  unfold _generateSignedZKProof.
  rewrite (run_eta (generateZKProof env zkCred code)) at 1.
  destruct (outcome (generateZKProof env zkCred code)) as [body|e].
  - rewrite bind_Normal. cbn. by rewrite (right_id_L [] (++)).
  - by rewrite bind_Throw.
Qed.

(** Signed generation returns a signed proof exactly when generation
    returns its body, and the signature is the constant
    [some_signature], whatever the credential and the code; it makes the
    calls of generation and no other. *)
Theorem generateSigned_wraps_generate zkCred code signed :
  (outcome (_generateSignedZKProof env zkCred code) = Normal signed
   <-> outcome (generateZKProof env zkCred code) = Normal (SignedZKProof.body signed)
       /\ SignedZKProof.signature signed = "some_signature")
  /\ calls (_generateSignedZKProof env zkCred code)
     = calls (generateZKProof env zkCred code).
Proof.
  rewrite _generateSignedZKProof_unfold. split; [|done]. cbn [outcome snd].
  destruct (outcome (generateZKProof env zkCred code)) as [body|e]; destruct signed as [b s]; cbn.
  - split; [by intros [= <- <-] | by intros [[= <-] <-]].
  - split; [done | by intros [? _]].
Qed.

(** When generation throws, signed generation throws the same
    exception. *)
Theorem generateSigned_failure zkCred code e :
  outcome (generateZKProof env zkCred code) = Throw e ->
  outcome (_generateSignedZKProof env zkCred code) = Throw e.
Proof. intros Hgen. rewrite _generateSignedZKProof_unfold. cbn [outcome snd]. by rewrite Hgen. Qed.

(** ** Signed verification (lines 96-100) *)

(** A signed proof made by signed generation is verified as its body is,
    for the DID of the placeholder address: when that address resolves to
    the DID of the credential, the store holds the credential and its blob
    decodes to [fields], signed verification has the outcome of the
    predicate on [fields]. *)
Theorem verifySigned_generated zkCred code signed fields :
  outcome (_generateSignedZKProof env zkCred code) = Normal signed ->
  getDID env "some_recovered_address" = Normal (ZKCredential.did zkCred) ->
  getZKCredential env (ZKCredential.did zkCred) (ZKCredential.purpose zkCred)
  = Normal zkCred ->
  didEqual env (ZKCredential.did zkCred) (ZKCredential.did zkCred) = true ->
  outcome (decodeFieldPayload env (ZKCredential.credential zkCred)) = Normal fields ->
  exists circuit,
    getCircuit env (ZKCredential.purpose zkCred) code = Normal circuit
    /\ outcome (_verifySignedZKProof env signed (ZKCredential.purpose zkCred))
       = verify circuit fields.
Proof.
  rewrite _generateSignedZKProof_unfold. cbn [outcome snd].
  destruct (outcome (generateZKProof env zkCred code)) as [body|e] eqn:Hgen; [|done].
  intros [= <-] Hdid Hcred Hsame Hdec.
  apply generateZKProof_Normal_inv in Hgen as (circuit & Hcirc & Hcode & ->).
  exists circuit. split; [done|]. unfold _verifySignedZKProof. cbn [SignedZKProof.body].
  by rewrite (verifyZKProof_evaluates _ _ _ _ (ZKCredential.did zkCred) zkCred circuit fields).
Qed.

(** When the resolver does not know the placeholder address, signed
    verification fails for every signed proof and every purpose, with the
    exception of the resolver and after that one call. *)
Theorem verifySigned_unresolved_address e signed purpose :
  getDID env "some_recovered_address" = Throw e ->
  _verifySignedZKProof env signed purpose
  = ([EgetDID "some_recovered_address"], Throw e).
Proof.
  intros Hdid. unfold _verifySignedZKProof, verifyZKProof.
  by rewrite Hdid, bind_call_Throw.
Qed.

(** ** Verification (lines 60-87) *)

(** Case analysis on the stage at which a run of [verifyZKProof] ends. *)
Ltac split_stages :=
  match goal with
  | |- context [verifyZKProof ?E ?p ?a ?u] =>
      destruct (verifyZKProof_stages E p a u)
  end;
  simplify_eq; try done; try congruence.

(** When the resolver throws, verification throws the same exception and
    the credential store is not queried. *)
Theorem verify_unknown_prover zkProof prover purpose e :
  getDID env prover = Throw e ->
  verifyZKProof env zkProof prover purpose = ([EgetDID prover], Throw e).
Proof. intros. split_stages. Qed.

(** When the store throws for the resolved DID and the purpose,
    verification throws the same exception; nothing of the proof has been
    read. *)
Theorem verify_credential_not_found zkProof prover purpose (d : DID) e :
  getDID env prover = Normal d ->
  getZKCredential env d purpose = Throw e ->
  verifyZKProof env zkProof prover purpose
  = ([EgetDID prover; EgetZKCredential d purpose], Throw e).
Proof. intros. split_stages. Qed.

(** When the credential returned by the store belongs to another DID than
    the one of the prover, verification throws [ProverMismatch], whatever
    the purpose and the commitment of the credential and whatever the
    proof. *)
Theorem verify_prover_mismatch zkProof prover purpose (d : DID) zkCred :
  getDID env prover = Normal d ->
  getZKCredential env d purpose = Normal zkCred ->
  didEqual env (ZKCredential.did zkCred) d = false ->
  verifyZKProof env zkProof prover purpose
  = (binding_calls prover purpose d zkCred, Throw ProverMismatch).
Proof. intros. split_stages. Qed.

(** When the binding checks pass and the registry throws for the purpose
    and the code of the proof, verification throws the same exception, and
    the payload is not decoded. *)
Theorem verify_circuit_not_found zkProof prover purpose (d : DID) zkCred e :
  getDID env prover = Normal d ->
  getZKCredential env d purpose = Normal zkCred ->
  didEqual env (ZKCredential.did zkCred) d = true ->
  ZKCredential.purpose zkCred = purpose ->
  ZKCredential.commitment zkCred = ZKProof.commitment zkProof ->
  getCircuit env purpose (ZKProof.code zkProof) = Throw e ->
  verifyZKProof env zkProof prover purpose
  = (binding_calls prover purpose d zkCred ++ [EgetCircuit purpose (ZKProof.code zkProof)],
     Throw e).
Proof. intros. split_stages. Qed.

(** A verification that returns a boolean has called each of the seven
    functions of [verify_call_order], once and in that order. *)
Theorem verify_boolean_calls_everything zkProof prover purpose (b : bool) :
  outcome (verifyZKProof env zkProof prover purpose) = Normal b ->
  callee <$> calls (verifyZKProof env zkProof prover purpose) = verify_call_order.
Proof.
  destruct (verifyZKProof_stages env zkProof prover purpose) as
    [ | | | | | | |d zkCred circuit fields ?????? Hdec]; cbn [outcome snd calls fst]; try done.
  intros _. by rewrite !fmap_app, (decodeFieldPayload_Normal_calls _ _ _ Hdec).
Qed.

(** Whatever its outcome, verification calls no function twice, and it
    does not call [callApi]. *)
Theorem verify_calls_at_most_once zkProof prover purpose :
  NoDup (callee <$> calls (verifyZKProof env zkProof prover purpose))
  /\ "callApi" ∉ callee <$> calls (verifyZKProof env zkProof prover purpose).
Proof.
  destruct (verifyZKProof_call_order env zkProof prover purpose) as [n ->].
  assert (NoDup verify_call_order) as Hnd by (by apply (bool_decide_unpack _)).
  split.
  - eapply sublist_NoDup; [exact Hnd|apply sublist_take].
  - intros Hin%elem_of_take. destruct Hin as (i & Hi & _).
    unfold verify_call_order in Hi.
    do 7 (destruct i as [|i]; [done|]). done.
Qed.

(** Verification reads the payload through the decoder only: two proofs
    with the same code and the same commitment, whose payloads are decoded
    to the same result, have the same outcome. *)
Theorem verify_depends_on_decoded_fields zkProof1 zkProof2 prover purpose :
  ZKProof.code zkProof1 = ZKProof.code zkProof2 ->
  ZKProof.commitment zkProof1 = ZKProof.commitment zkProof2 ->
  outcome (decodeFieldPayload env (ZKProof.proof zkProof1))
  = outcome (decodeFieldPayload env (ZKProof.proof zkProof2)) ->
  outcome (verifyZKProof env zkProof1 prover purpose)
  = outcome (verifyZKProof env zkProof2 prover purpose).
Proof.
  intros Hcode Hcomm Hdec.
  destruct (verifyZKProof_stages env zkProof1 prover purpose);
    destruct (verifyZKProof_stages env zkProof2 prover purpose);
    cbn [outcome snd]; simplify_eq; try done; congruence.
Qed.

End Coverage.

(** ** The further properties on the scenario and its variations *)

Lemma decode_object_payload_scenario :
  exists fields,
    outcome (decodeFieldPayload Scenario.env "eyJhZ2UiOjI1fQ==") = Normal fields
    /\ (forall (k : string) (v : JSON),
          fields !! k = Some v <-> (k, v) ∈ [("age", JNumber 25)]).
Proof.
  apply (decode_object_payload Scenario.env "eyJhZ2UiOjI1fQ=="
           ("{" +:+ Scenario.dq +:+ "age" +:+ Scenario.dq +:+ ":25}")
           [("age", JNumber 25)]);
    [reflexivity | reflexivity |].
  apply NoDup_cons. split; [apply not_elem_of_nil | apply NoDup_nil_2].
Defined.

Lemma decode_array_payload_scenario :
  exists fields,
    outcome (decodeFieldPayload Variants.array_env "WzE4LDI1XQ==") = Normal fields
    /\ (forall (k : string) (v : JSON),
          fields !! k = Some v
          <-> exists j : nat, k = pretty j /\ [JNumber 18; JNumber 25] !! j = Some v).
Proof.
  apply (decode_array_payload Variants.array_env "WzE4LDI1XQ==" "[18,25]"
           [JNumber 18; JNumber 25]); reflexivity.
Defined.


Lemma decode_parsed_fails_only_on_null_scenario :
  is_Normal (outcome (decodeFieldPayload Scenario.env "bnVsbA==")) = false
  <-> JNull = JNull.
Proof.
  apply (decode_parsed_fails_only_on_null Scenario.env "bnVsbA==" "null" JNull);
    reflexivity.
Defined.

Lemma generate_registry_failure_scenario :
  outcome (generateZKProof Scenario.env Scenario.alice "UNKNOWN")
  = Throw (Error "Circuit not found").
Proof.
  apply (generate_registry_failure Scenario.env Scenario.alice "UNKNOWN"). reflexivity.
Defined.

Lemma generate_does_not_check_blob_scenario :
  outcome (verifyZKProof Variants.garbled_env (ZKProof.Mk "AGE_GTE_18" "bm90IGpzb24=" "C1")
             "0xA11CE" (ZKCredential.purpose Variants.garbled))
  = Throw (MkExn "SyntaxError" "Unexpected token o in JSON at position 1").
Proof.
  apply (generate_does_not_check_blob Variants.garbled_env Variants.garbled "AGE_GTE_18");
    vm_compute; reflexivity.
Defined.

Lemma generateSigned_failure_scenario :
  outcome (_generateSignedZKProof Scenario.env Scenario.alice "AGE_GTE")
  = Throw (CircuitCodeMismatch "AGE_GTE" "AGE_GTE_18").
Proof.
  apply (generateSigned_failure Scenario.env Scenario.alice "AGE_GTE"). reflexivity.
Defined.

Lemma verifySigned_generated_scenario :
  exists circuit,
    getCircuit Scenario.env (ZKCredential.purpose Scenario.alice) "AGE_GTE_18" = Normal circuit
    /\ outcome (_verifySignedZKProof Scenario.env
                  (SignedZKProof.Mk (ZKProof.Mk "AGE_GTE_18" "eyJhZ2UiOjI1fQ==" "C1")
                     "some_signature")
                  (ZKCredential.purpose Scenario.alice))
       = verify circuit {[ "age" := JNumber 25 ]}.
Proof.
  apply (verifySigned_generated Scenario.env Scenario.alice "AGE_GTE_18"
           (SignedZKProof.Mk (ZKProof.Mk "AGE_GTE_18" "eyJhZ2UiOjI1fQ==" "C1")
              "some_signature")
           {[ "age" := JNumber 25 ]});
    vm_compute; reflexivity.
Defined.

Lemma verifySigned_unresolved_address_scenario :
  _verifySignedZKProof Variants.strict_env
    (SignedZKProof.Mk (ZKProof.Mk "AGE_GTE_18" "eyJhZ2UiOjI1fQ==" "C1") "some_signature")
    "age-check"
  = ([EgetDID "some_recovered_address"], Throw (Error "Unknown prover")).
Proof.
  apply (verifySigned_unresolved_address Variants.strict_env (Error "Unknown prover")).
  reflexivity.
Defined.

Lemma verify_unknown_prover_scenario :
  verifyZKProof Scenario.env (ZKProof.Mk "AGE_GTE_18" "eyJhZ2UiOjI1fQ==" "C1")
    "0xNOBODY" "age-check"
  = ([EgetDID "0xNOBODY"], Throw (Error "Unknown prover")).
Proof.
  apply (verify_unknown_prover Scenario.env). reflexivity.
Defined.

Lemma verify_credential_not_found_scenario :
  verifyZKProof Scenario.env (ZKProof.Mk "AGE_GTE_18" "eyJhZ2UiOjI1fQ==" "C1")
    "0xA11CE" "income-check"
  = ([EgetDID "0xA11CE"; EgetZKCredential "did:ex:1" "income-check"],
     Throw (Error "Credential not found")).
Proof.
  apply (verify_credential_not_found Scenario.env); reflexivity.
Defined.

(** The proof of [did:ex:1], presented by the prover [0xB0B]. *)
Lemma verify_prover_mismatch_scenario :
  verifyZKProof Variants.bob_env (ZKProof.Mk "AGE_GTE_18" "eyJhZ2UiOjI1fQ==" "C1")
    "0xB0B" "age-check"
  = (binding_calls "0xB0B" "age-check" "did:ex:2" Scenario.alice, Throw ProverMismatch).
Proof.
  apply (verify_prover_mismatch Variants.bob_env); reflexivity.
Defined.

Lemma verify_circuit_not_found_scenario :
  verifyZKProof Scenario.env (ZKProof.Mk "UNKNOWN" "eyJhZ2UiOjI1fQ==" "C1")
    "0xA11CE" "age-check"
  = (binding_calls "0xA11CE" "age-check" "did:ex:1" Scenario.alice
       ++ [EgetCircuit "age-check" "UNKNOWN"],
     Throw (Error "Circuit not found")).
Proof.
  apply (verify_circuit_not_found Scenario.env (ZKProof.Mk "UNKNOWN" "eyJhZ2UiOjI1fQ==" "C1")
           "0xA11CE" "age-check" "did:ex:1" Scenario.alice);
    reflexivity.
Defined.

Lemma verify_boolean_calls_everything_scenario :
  callee <$> calls (verifyZKProof Scenario.env
                      (ZKProof.Mk "AGE_GTE_18" "eyJhZ2UiOjEwfQ==" "C1") "0xA11CE" "age-check")
  = verify_call_order.
Proof.
  apply (verify_boolean_calls_everything Scenario.env
           (ZKProof.Mk "AGE_GTE_18" "eyJhZ2UiOjEwfQ==" "C1") "0xA11CE" "age-check" false).
  vm_compute; reflexivity.
Defined.

(** The payloads [NQ==] (the number 5) and [dHJ1ZQ==] (the boolean true)
    are both decoded to the empty mapping. *)
Lemma verify_depends_on_decoded_fields_scenario :
  outcome (verifyZKProof Scenario.env (ZKProof.Mk "AGE_GTE_18" "NQ==" "C1")
             "0xA11CE" "age-check")
  = outcome (verifyZKProof Scenario.env (ZKProof.Mk "AGE_GTE_18" "dHJ1ZQ==" "C1")
               "0xA11CE" "age-check").
Proof.
  apply (verify_depends_on_decoded_fields Scenario.env
           (ZKProof.Mk "AGE_GTE_18" "NQ==" "C1") (ZKProof.Mk "AGE_GTE_18" "dHJ1ZQ==" "C1"));
    reflexivity.
Defined.
